(** * The server driver of the Bun web-socket server

    A shallow embedding of [ServerLogger] and [ServerDriver] (the dispatcher
    that answers inbound exchanges), with the properties of the dispatch
    pipeline that the design document states about them.

    Collaborators whose code lives outside the source tree (the transport,
    the loggers' base class, the middleware and route drivers, the route
    handles) are taken as parameters; every call the driver makes to one of
    them is recorded as an event, so that "is invoked", "exactly once" and
    "before" are statements about a trace. *)

From Stdlib Require Import ZArith Ascii String.
From stdpp Require Import gmap strings list.

Local Open Scope string_scope.
Local Open Scope list_scope.
Set Warnings "-register-all".

(* ===================================================================== *)
(** * Definitions *)
(* ===================================================================== *)

(** ** How a call ends

    A call of the platform returns a value or throws. *)
Inductive JsError : Type := RangeError | TypeError.

Inductive completion (A : Type) : Type :=
| Normal (a : A)
| Throw (e : JsError).
Arguments Normal {A} a.
Arguments Throw {A} e.

Definition completes {A : Type} (c : completion A) : Prop :=
  match c with
  | Normal _ => True
  | Throw _ => False
  end.

(** The value of a call that is known to return. *)
Definition returned {A : Type} (c : completion A) : completes c -> A :=
  match c with
  | Normal a => fun _ => a
  | Throw _ => fun H => match H with end
  end.

(** The value of a call, if it returns. *)
Definition value_of {A : Type} (c : completion A) : option A :=
  match c with
  | Normal a => Some a
  | Throw _ => None
  end.

(** ** JSON.stringify

    The values a payload can hold.  A number is kept as what the serializer
    needs of it: whether it is finite and the text [Number::toString] gives
    it.  A string is its sequence of bytes (UTF-8, so well formed).
    [Function r] is a callable that returns [r] when [JSON.stringify] calls
    it as [toJSON].  [Circular] is a reference back to an object that
    encloses it.  An object is the list of its enumerable string-keyed
    properties, in the order the object enumerates them; a callable
    [toJSON] the object answers to is listed among them. *)
Module JSON.

Record number : Type := {
  is_finite : bool;
  to_string : string
}.

Inductive value : Type :=
| Undefined
| Null
| Bool (b : bool)
| Number (n : number)
| Str (s : string)
| BigInt (n : Z)
| Symbol (description : string)
| Function (toJSON_result : value)
| Circular
| Array (items : list value)
| Object (props : list (string * value)).

Definition hex_digit (n : N) : ascii :=
  if (n <? 10)%N then ascii_of_N (48 + n) else ascii_of_N (87 + n).

(** One code unit of a quoted string: the two-character escapes, [\u00xx]
    for the other control characters, and the unit itself otherwise. *)
Definition escape_char (c : ascii) : string :=
  let n := N_of_ascii c in
  if (n =? 8)%N then "\b"
  else if (n =? 9)%N then "\t"
  else if (n =? 10)%N then "\n"
  else if (n =? 12)%N then "\f"
  else if (n =? 13)%N then "\r"
  else if (n =? 34)%N then String "\" (String c "")
  else if (n =? 92)%N then "\\"
  else if (n <? 32)%N then
    "\u00" +:+ String (hex_digit (n / 16)) (String (hex_digit (n mod 16)) "")
  else String c "".

Fixpoint escape (s : string) : string :=
  match s with
  | EmptyString => ""
  | String c s' => escape_char c +:+ escape s'
  end.

Definition dquote : string := String "034"%char "".

Definition quote (s : string) : string := dquote +:+ escape s +:+ dquote.

Definition join (parts : list string) : string := String.concat "," parts.

(** The elements of an array, written: one that serializes to [undefined]
    is written [null]; the first throw is the throw of the whole. *)
Fixpoint array_parts (written : list (completion (option string)))
    : completion (list string) :=
  match written with
  | [] => Normal []
  | Throw e :: _ => Throw e
  | Normal text :: rest =>
      match array_parts rest with
      | Normal parts => Normal (default "null" text :: parts)
      | Throw e => Throw e
      end
  end.

(** The properties of an object, written: one that serializes to
    [undefined] is left out. *)
Fixpoint object_parts (written : list (string * completion (option string)))
    : completion (list string) :=
  match written with
  | [] => Normal []
  | (_, Throw e) :: _ => Throw e
  | (key, Normal text) :: rest =>
      match object_parts rest with
      | Normal parts =>
          Normal (match text with
                  | Some t => (quote key +:+ ":" +:+ t) :: parts
                  | None => parts
                  end)
      | Throw e => Throw e
      end
  end.

(** [serialize true v] is the serialization of [v] as a property value:
    an object that answers to [toJSON] is replaced by what that call
    returns, which is then written without a second [toJSON] call
    ([serialize false]).  The text is [None] where the serializer gives
    [undefined]; a [BigInt] or a cycle throws [TypeError]. *)
Fixpoint serialize (call_toJSON : bool) (v : value) : completion (option string) :=
  match v with
  | Undefined | Symbol _ | Function _ => Normal None
  | Null => Normal (Some "null")
  | Bool true => Normal (Some "true")
  | Bool false => Normal (Some "false")
  | Number n => Normal (Some (if is_finite n then to_string n else "null"))
  | Str s => Normal (Some (quote s))
  | BigInt _ | Circular => Throw TypeError
  | Array items =>
      match array_parts (List.map (serialize true) items) with
      | Normal parts => Normal (Some ("[" +:+ join parts +:+ "]"))
      | Throw e => Throw e
      end
  | Object props =>
      let write :=
        match object_parts (List.map (fun kv => (fst kv, serialize true (snd kv))) props) with
        | Normal parts => Normal (Some ("{" +:+ join parts +:+ "}"))
        | Throw e => Throw e
        end in
      if call_toJSON then
        (fix find (ps : list (string * value)) : completion (option string) :=
           match ps with
           | [] => write
           | (key, v') :: ps' =>
               if String.eqb key "toJSON" then
                 match v' with
                 | Function r => serialize false r
                 | _ => write
                 end
               else find ps'
           end) props
      else write
  end.

Definition stringify (v : value) : completion (option string) := serialize true v.

End JSON.

(** A payload [{ [prop: string]: any }]. *)
Definition Payload : Type := list (string * JSON.value).

(** ** Request and Response *)

Record Request : Type := {
  url : string;
  method : string;
  request_headers : list (string * string)
}.

(** Header lists hold lower-cased names, as [Headers] does. *)
Fixpoint Headers_get (name : string) (hs : list (string * string)) : option string :=
  match hs with
  | [] => None
  | (k, v) :: hs' => if String.eqb k name then Some v else Headers_get name hs'
  end.

Record ResponseInit : Type := {
  init_headers : list (string * string);
  init_status : Z
}.

Record Response : Type := {
  body : option string;
  headers : list (string * string);
  status : Z
}.

(** ** JavaScript values that a collaborator may hand back

    What [startMiddleware] and [server.upgrade] return is compared with
    [===]; an object is equal only to itself, so it is held by reference. *)
Inductive JsValue : Type :=
| JsUndefined
| JsNull
| JsBool (b : bool)
| JsNumber (n : Z)
| JsString (s : string)
| JsObject (ref : nat).

Definition strict_equals (a b : JsValue) : bool :=
  match a, b with
  | JsUndefined, JsUndefined => true
  | JsNull, JsNull => true
  | JsBool x, JsBool y => Bool.eqb x y
  | JsNumber x, JsNumber y => (x =? y)%Z
  | JsString x, JsString y => String.eqb x y
  | JsObject x, JsObject y => Nat.eqb x y
  | _, _ => false
  end.

(** ** The logger of the server *)

Inductive LogLevel : Type := info | error.

Record ServerLogger (CommandLineDriver : Type) : Type := {
  commandLineDriver : CommandLineDriver;
  componentName : string
}.
Arguments commandLineDriver {_} _.
Arguments componentName {_} _.

Definition ServerLogger_new {CommandLineDriver : Type}
    (cld : CommandLineDriver) : ServerLogger CommandLineDriver :=
  {| commandLineDriver := cld; componentName := "SERVER" |}.

Inductive RouteType : Type := WEB | WEB_SOCKET.

(** ** Collaborators

    The world outside the driver: its state, the objects the driver holds
    and the behaviour of the calls it makes on them.  [Logger_log] is the
    [info]/[error] pair that [ServerLogger] inherits from [Logger].  The
    last two say where runtimes differ on [new Response]: whether a string
    body that comes without a content type is given the one of text, and
    whether the status 101 is taken. *)
Class Externals : Type := {
  World : Type;
  Server : Type;
  WebSocketDriver : Type;
  AuthorizationDriver : Type;
  CommandLineDriver : Type;
  WebSocketHandler : Type;
  Server_upgrade : Server -> Request -> World -> bool * World;
  Logger_log : ServerLogger CommandLineDriver -> LogLevel -> string -> World -> World;
  WebSocketDriver_bunWebSocketHandler : WebSocketDriver -> WebSocketHandler;
  console_log : string -> World -> World;
  Response_types_text : bool;
  Response_allows_101 : bool
}.

Section Driver.
Context `{Externals}.

(** The statuses [new Response] takes: 200 to 599, and 101 on some runtimes. *)
Definition Response_status_ok (st : Z) : bool :=
  ((200 <=? st)%Z && (st <=? 599)%Z) || ((st =? 101)%Z && Response_allows_101).

(** [new Response(body, init)]: a [RangeError] for a status it does not
    take; otherwise the response with that body, that status and the headers
    of [init], to which the runtime may add its content type for a string
    body that comes without one. *)
Definition Response_new (b : option string) (init : ResponseInit) : completion Response :=
  if Response_status_ok (init_status init) then
    Normal {| body := b;
              headers :=
                match b, Headers_get "content-type" (init_headers init),
                      Response_types_text with
                | Some _, None, true =>
                    init_headers init ++ [("content-type", "text/plain;charset=UTF-8")]
                | _, _, _ => init_headers init
                end;
              status := init_status init |}
  else Throw RangeError.

(** Adds content type json header to the response and sends the response.
    The payload is serialized first, so its [TypeError] comes before the
    [RangeError] of the status. *)
Definition json (payload : Payload) (status : Z) : completion Response :=
  match JSON.stringify (JSON.Object payload) with
  | Normal text =>
      Response_new text
        {| init_headers := [("content-type", "application/json")];
           init_status := status |}
  | Throw e => Throw e
  end.

(** [{ json: this.json, getLogger: this.getLogger }]: two methods taken
    off the driver.  [json] does not use its receiver; [getLogger] returns
    the [ServerLogger] property of whatever receiver it is called on. *)
Record ServerDriverInterface : Type := {
  interface_json : Payload -> Z -> completion Response;
  interface_getLogger :
    option (ServerLogger CommandLineDriver) -> option (ServerLogger CommandLineDriver)
}.

Record RouteHandleContext : Type := {
  authLevelForRequestedRoute : Z;
  request : Request;
  server : Server;
  context_WebSocketDriver : WebSocketDriver;
  context_AuthorizationDriver : AuthorizationDriver;
  context_ServerDriverInterface : ServerDriverInterface
}.

(** A route handle: [handle] for both kinds of route, and the two upgrade
    callbacks of a web-socket handle.  The context is an object shared with
    the callee, which hands it back as it left it. *)
Record RouteHandle : Type := {
  handle : RouteHandleContext -> World -> option Response * RouteHandleContext * World;
  onUpgradeSuccess : World -> World;
  onUpgradeFailed : World -> World
}.

Record Route : Type := {
  path : string;
  type : RouteType;
  authLevel : Z;
  handler : RouteHandle
}.

(** [startMiddleware(context)]: whatever value it returns (the driver tests
    it with [=== false]), and the context as the chain left it. *)
Record MiddlewareDriver : Type := {
  startMiddleware : RouteHandleContext -> World -> JsValue * RouteHandleContext * World
}.

(** [findInRouteRegistry(url)]: the route, or [undefined]; a lookup in a
    registry that dispatch does not change. *)
Record RouteDriver : Type := {
  findInRouteRegistry : string -> option Route
}.

(** ** Events: the calls the driver makes *)
Inductive Event : Type :=
| EvFindInRouteRegistry (u : string)
| EvStartMiddleware (ctx_in : RouteHandleContext) (res : JsValue) (ctx_out : RouteHandleContext)
| EvHandle (route_path : string) (ctx_in : RouteHandleContext) (ctx_out : RouteHandleContext)
| EvOnUpgradeSuccess (route_path : string)
| EvOnUpgradeFailed (route_path : string)
| EvUpgrade (srv : Server) (req : Request) (ok : bool)
| EvLog (component : string) (level : LogLevel) (message : string)
| EvConsoleLog (message : string).

(** ** Computations: a state monad on the world that writes a trace *)
Definition M (A : Type) : Type := World -> A * World * list Event.

#[global] Instance M_ret : MRet M := fun A a w => (a, w, []).
#[global] Instance M_bind : MBind M := fun A B f m w =>
  let '(a, w1, t1) := m w in
  let '(b, w2, t2) := f a w1 in
  (b, w2, t1 ++ t2).

Definition result {A} (r : A * World * list Event) : A := r.1.1.
Definition world_after {A} (r : A * World * list Event) : World := r.1.2.
Definition trace {A} (r : A * World * list Event) : list Event := r.2.

(** The calls on collaborators, each leaving its event. *)
Definition call_findInRouteRegistry (rd : RouteDriver) (u : string) : M (option Route) :=
  fun w => (findInRouteRegistry rd u, w, [EvFindInRouteRegistry u]).

Definition call_startMiddleware (md : MiddlewareDriver) (ctx : RouteHandleContext)
    : M (JsValue * RouteHandleContext) :=
  fun w => let '(res, ctx', w') := startMiddleware md ctx w in
           ((res, ctx'), w', [EvStartMiddleware ctx res ctx']).

Definition call_handle (route : Route) (ctx : RouteHandleContext) : M (option Response) :=
  fun w => let '(r, ctx', w') := handle (handler route) ctx w in
           (r, w', [EvHandle (path route) ctx ctx']).

Definition call_onUpgradeSuccess (route : Route) : M unit :=
  fun w => (tt, onUpgradeSuccess (handler route) w, [EvOnUpgradeSuccess (path route)]).

Definition call_onUpgradeFailed (route : Route) : M unit :=
  fun w => (tt, onUpgradeFailed (handler route) w, [EvOnUpgradeFailed (path route)]).

Definition call_upgrade (srv : Server) (req : Request) : M bool :=
  fun w => let '(ok, w') := Server_upgrade srv req w in (ok, w', [EvUpgrade srv req ok]).

Definition call_log (l : ServerLogger CommandLineDriver) (level : LogLevel) (msg : string)
    : M unit :=
  fun w => (tt, Logger_log l level msg w, [EvLog (componentName l) level msg]).

Definition call_console_log (msg : string) : M unit :=
  fun w => (tt, console_log msg w, [EvConsoleLog msg]).

(** ** ServerDriver *)
Record ServerDriverConfig : Type := {
  config_WebSocketDriver : WebSocketDriver;
  config_ServerLogger : ServerLogger CommandLineDriver;
  config_RouteDriver : RouteDriver;
  config_AuthorizationDriver : AuthorizationDriver;
  config_MiddlewareDriver : MiddlewareDriver;
  config_port : Z;
  config_rootUrl : string
}.

Record ServerDriver : Type := {
  this_WebSocketDriver : WebSocketDriver;
  this_RouteDriver : RouteDriver;
  _port : Z;
  _rootUrl : string;
  this_ServerLogger : ServerLogger CommandLineDriver;
  this_AuthorizationDriver : AuthorizationDriver;
  this_MiddlewareDriver : MiddlewareDriver;
  this_ServerDriverInterface : ServerDriverInterface
}.

Definition getLogger (this : ServerDriver) : ServerLogger CommandLineDriver :=
  this_ServerLogger this.

Definition ServerDriver_new (config : ServerDriverConfig) : ServerDriver :=
  {| this_WebSocketDriver := config_WebSocketDriver config;
     this_ServerLogger := config_ServerLogger config;
     this_RouteDriver := config_RouteDriver config;
     this_AuthorizationDriver := config_AuthorizationDriver config;
     this_MiddlewareDriver := config_MiddlewareDriver config;
     this_ServerDriverInterface :=
       {| interface_json := json; interface_getLogger := fun receiver_logger => receiver_logger |};
     _port := config_port config;
     _rootUrl := config_rootUrl config |}.

(** The options [serve] passes to [Bun.serve]. *)
Record BunServeOptions : Type := {
  fetch : Request -> Server -> M (option Response);
  websocket : WebSocketHandler;
  port : Z
}.

Definition serve (this : ServerDriver) : BunServeOptions :=
  {| fetch := fun req server =>
       upgraded ← call_upgrade server req;
       if (upgraded : bool) then mret None
       else mret (Some (returned (Response_new (Some "Not Found")
                                    {| init_headers := []; init_status := 404 |}) I));
     websocket := WebSocketDriver_bunWebSocketHandler (this_WebSocketDriver this);
     port := _port this |}.

Definition handleWebRoute (this : ServerDriver) (req : Request) (server : Server)
    (route : Route) : M (option Response) :=
  let context :=
    {| authLevelForRequestedRoute := authLevel route;
       request := req;
       server := server;
       context_WebSocketDriver := this_WebSocketDriver this;
       context_AuthorizationDriver := this_AuthorizationDriver this;
       context_ServerDriverInterface := this_ServerDriverInterface this |} in
  '(res, context) ← call_startMiddleware (this_MiddlewareDriver this) context;
  if strict_equals res (JsBool false) then
    mret (Some (returned (json [("message", JSON.Str "Forbidden.")] 403) I))
  else
    call_handle route context.

Definition handleWebSocketRoute (this : ServerDriver) (req : Request) (server : Server)
    (route : Route) : M (option Response) :=
  _ ← call_log (this_ServerLogger this) info
        ("WebSocket route " +:+ path route +:+ " connected");
  let context :=
    {| authLevelForRequestedRoute := authLevel route;
       request := req;
       server := server;
       context_WebSocketDriver := this_WebSocketDriver this;
       context_AuthorizationDriver := this_AuthorizationDriver this;
       context_ServerDriverInterface := this_ServerDriverInterface this |} in
  _ ← call_log (this_ServerLogger this) info "context initialized";
  _ ← call_handle route context;
  _ ← (if false then
         _ ← call_log (this_ServerLogger this) error
               "Failed to upgrade request to websocket.";
         call_onUpgradeFailed route
       else
         _ ← call_log (this_ServerLogger this) info "Upgraded request to websocket.";
         call_onUpgradeSuccess route);
  mret None.

Definition bunFetchHandler (this : ServerDriver) (req : Request) (server : Server)
    : M (option Response) :=
  route ← call_findInRouteRegistry (this_RouteDriver this) (url req);
  match route with
  | None =>
      mret (Some (returned (Response_new (Some "Not Found")
                              {| init_headers := []; init_status := 404 |}) I))
  | Some route =>
      match type route with
      | WEB => handleWebRoute this req server route
      | WEB_SOCKET => handleWebSocketRoute this req server route
      end
  end.

(** What [upgrade2WebSocket] returns: the 403 response, or the value of
    [server.upgrade]. *)
Inductive UpgradeResult : Type :=
| UpgradeRefused (r : Response)
| UpgradeValue (upgrade : bool).

Definition upgrade2WebSocket (this : ServerDriver) (req : Request) (server : Server)
    : M UpgradeResult :=
  upgrade ← call_upgrade server req;
  _ ← call_console_log (if (upgrade : bool) then "true" else "false");
  if strict_equals (JsBool upgrade) (JsBool false) then
    mret (UpgradeRefused (returned (json [("message", JSON.Str "Forbidden.")] 403) I))
  else
    mret (UpgradeValue upgrade).

(** The context literal that [handleWebRoute] and [handleWebSocketRoute]
    both write, named for the statements below. *)
Definition built_context (this : ServerDriver) (req : Request) (server : Server)
    (route : Route) : RouteHandleContext :=
  {| authLevelForRequestedRoute := authLevel route;
     request := req;
     server := server;
     context_WebSocketDriver := this_WebSocketDriver this;
     context_AuthorizationDriver := this_AuthorizationDriver this;
     context_ServerDriverInterface := this_ServerDriverInterface this |}.

(** The response written for an unknown route, in [bunFetchHandler] and in
    the [fetch] of [serve]. *)
Definition not_found_response : Response :=
  returned (Response_new (Some "Not Found") {| init_headers := []; init_status := 404 |}) I.

(** The response of [this.json({ message: 'Forbidden.' }, 403)], written in
    [handleWebRoute] and in [upgrade2WebSocket]. *)
Definition forbidden_response : Response :=
  returned (json [("message", JSON.Str "Forbidden.")] 403) I.

(** *** Reading a trace *)

Definition is_handle_event (e : Event) : bool :=
  match e with EvHandle _ _ _ => true | _ => false end.

Definition is_upgrade_step (e : Event) : bool :=
  match e with
  | EvUpgrade _ _ _ | EvOnUpgradeSuccess _ | EvOnUpgradeFailed _ => true
  | _ => false
  end.

Definition is_dispatch_step (e : Event) : bool :=
  match e with
  | EvFindInRouteRegistry _ | EvStartMiddleware _ _ _ | EvHandle _ _ _ => true
  | _ => false
  end.

Definition is_error_log (e : Event) : bool :=
  match e with EvLog _ error _ => true | _ => false end.

(** A context leaves the driver's hands at [startMiddleware] and at
    [handle], and comes back as the callee left it. *)
Definition handoff (e : Event) : option (RouteHandleContext * RouteHandleContext) :=
  match e with
  | EvStartMiddleware ctx_in _ ctx_out => Some (ctx_in, ctx_out)
  | EvHandle _ ctx_in ctx_out => Some (ctx_in, ctx_out)
  | _ => None
  end.

Definition handoffs (tr : list Event) : list (RouteHandleContext * RouteHandleContext) :=
  omap handoff tr.

(** [untouched c hs]: every callee receives the context exactly as the
    driver last held it, starting from [c]. *)
Fixpoint untouched (c : RouteHandleContext)
    (hs : list (RouteHandleContext * RouteHandleContext)) : Prop :=
  match hs with
  | [] => True
  | (ctx_in, ctx_out) :: hs' => ctx_in = c /\ untouched ctx_out hs'
  end.

(** A response that [json] could have built. *)
Definition json_response (r : Response) : Prop :=
  exists payload : Payload, json payload (status r) = Normal r.

End Driver.

(** ** The middleware chain

    Modelled from the spec: [MiddlewareDriver] is not in the source tree,
    only the call [startMiddleware(context)] is.  A chain is the list of its
    links in registration order; a link answers continue ([true]) or reject
    ([false]) and may augment the context.  The links run in order, the first
    reject stops the chain, and a chain without links accepts. *)
Section MiddlewareChain.
Context `{Externals}.

Definition MiddlewareLink : Type :=
  RouteHandleContext -> World -> bool * RouteHandleContext * World.

Inductive ChainResult : Type := Accepted | Rejected.

(** The last component lists the positions of the links that ran. *)
Fixpoint run_from (i : nat) (links : list MiddlewareLink)
    (ctx : RouteHandleContext) (w : World)
    : ChainResult * RouteHandleContext * World * list nat :=
  match links with
  | [] => (Accepted, ctx, w, [])
  | link :: rest =>
      let '(continue, ctx1, w1) := link ctx w in
      if (continue : bool) then
        let '(r, ctx2, w2, ran) := run_from (S i) rest ctx1 w1 in
        (r, ctx2, w2, i :: ran)
      else (Rejected, ctx1, w1, [i])
  end.

Definition run (links : list MiddlewareLink) (ctx : RouteHandleContext) (w : World)
    : ChainResult * RouteHandleContext * World * list nat :=
  run_from 1 links ctx w.

(** The reference the chain is measured against: every link run once, in
    registration order, whatever it answers. *)
Definition link_step (s : RouteHandleContext * World) (link : MiddlewareLink)
    : RouteHandleContext * World :=
  let '(_, ctx', w') := link s.1 s.2 in (ctx', w').

Definition state_after (n : nat) (links : list MiddlewareLink)
    (ctx : RouteHandleContext) (w : World) : RouteHandleContext * World :=
  foldl link_step (ctx, w) (take n links).

(** The answer of the link at (0-based) position [i] when the links before
    it have run. *)
Definition verdict (i : nat) (links : list MiddlewareLink)
    (ctx : RouteHandleContext) (w : World) : option bool :=
  match links !! i with
  | Some link => let s := state_after i links ctx w in Some (link s.1 s.2).1.1
  | None => None
  end.

Definition MiddlewareDriver_of_chain (links : list MiddlewareLink) : MiddlewareDriver :=
  {| startMiddleware := fun ctx w =>
       let '(r, ctx', w', _) := run links ctx w in
       (JsBool (match r with Accepted => true | Rejected => false end), ctx', w') |}.

End MiddlewareChain.

(** ** The route registry

    Modelled from the spec: [RouteDriver] is not in the source tree, only the
    call [findInRouteRegistry(req.url)] is.  The registry maps a path to its
    route; [register] refuses a path that is taken, [resolve] is an exact
    lookup. *)
Section RouteRegistry.
Context `{Externals}.

Inductive RegisterResult : Type := RegisterOk | DuplicatePathError.

Definition register (route : Route) (registry : gmap string Route)
    : RegisterResult * gmap string Route :=
  match registry !! path route with
  | Some _ => (DuplicatePathError, registry)
  | None => (RegisterOk, <[path route := route]> registry)
  end.

Definition resolve (p : string) (registry : gmap string Route) : option Route :=
  registry !! p.

Definition register_all (routes : list Route) (registry : gmap string Route)
    : gmap string Route :=
  foldl (fun reg route => (register route reg).2) registry routes.

Definition RouteDriver_of_registry (registry : gmap string Route) : RouteDriver :=
  {| findInRouteRegistry := fun u => resolve u registry |}.

End RouteRegistry.

(** ** A small server

    Four routes behind a chain of three links, for a caller whose level is
    0: [/health] (request/response, level 0), [/admin] (request/response,
    level 1), [/chat] (web socket, level 1) and [/feed] (web socket,
    level 0).  The world is the journal of what the collaborators did; a
    server is the answer its transport gives to an upgrade.  The runtime
    gives a string body no content type of its own and takes the status
    101. *)
Module Example.

#[export] Instance externals : Externals := {|
  World := list string;
  Server := bool;
  WebSocketDriver := unit;
  AuthorizationDriver := unit;
  CommandLineDriver := unit;
  WebSocketHandler := unit;
  Server_upgrade := fun srv req w => (srv, w ++ ["upgrade " +:+ url req]);
  Logger_log := fun l level msg w =>
    w ++ [componentName l +:+ (match level with info => " info " | error => " error " end)
            +:+ msg];
  WebSocketDriver_bunWebSocketHandler := fun _ => tt;
  console_log := fun msg w => w ++ ["console " +:+ msg];
  Response_types_text := false;
  Response_allows_101 := true
|}.

Definition caller_level : Z := 0.

Definition authorization_link : MiddlewareLink :=
  fun ctx w =>
    ((authLevelForRequestedRoute ctx <=? caller_level)%Z, ctx, w ++ ["authorization"]).

Definition audit_link : MiddlewareLink :=
  fun ctx w => (true, ctx, w ++ ["audit " +:+ url (request ctx)]).

Definition health_handle : RouteHandle :=
  {| handle := fun ctx w =>
       (value_of (interface_json (context_ServerDriverInterface ctx)
                    [("status", JSON.Str "ok")] 200), ctx, w ++ ["health handled"]);
     onUpgradeSuccess := fun w => w;
     onUpgradeFailed := fun w => w |}.

Definition admin_handle : RouteHandle :=
  {| handle := fun ctx w =>
       (value_of (json [("secret", JSON.Str "42")] 200), ctx, w ++ ["admin handled"]);
     onUpgradeSuccess := fun w => w;
     onUpgradeFailed := fun w => w |}.

Definition socket_handle (name : string) : RouteHandle :=
  {| handle := fun ctx w => (None, ctx, w ++ [name +:+ " context loaded"]);
     onUpgradeSuccess := fun w => w ++ [name +:+ " connection open"];
     onUpgradeFailed := fun w => w ++ [name +:+ " upgrade failed"] |}.

Definition health : Route :=
  {| path := "/health"; type := WEB; authLevel := 0; handler := health_handle |}.
Definition admin : Route :=
  {| path := "/admin"; type := WEB; authLevel := 1; handler := admin_handle |}.
Definition chat : Route :=
  {| path := "/chat"; type := WEB_SOCKET; authLevel := 1; handler := socket_handle "chat" |}.
Definition feed : Route :=
  {| path := "/feed"; type := WEB_SOCKET; authLevel := 0; handler := socket_handle "feed" |}.

(** A second route that claims the path of [health]. *)
Definition impostor : Route :=
  {| path := "/health"; type := WEB_SOCKET; authLevel := 7; handler := socket_handle "impostor" |}.

Definition registry : gmap string Route :=
  register_all [health; admin; chat; feed] ∅.

Definition chain : list MiddlewareLink := [audit_link; authorization_link; audit_link].

Definition driver : ServerDriver :=
  ServerDriver_new
    {| config_WebSocketDriver := tt;
       config_ServerLogger := ServerLogger_new tt;
       config_RouteDriver := RouteDriver_of_registry registry;
       config_AuthorizationDriver := tt;
       config_MiddlewareDriver := MiddlewareDriver_of_chain chain;
       config_port := 3000;
       config_rootUrl := "/" |}.

Definition get (u : string) : Request :=
  {| url := u; method := "GET"; request_headers := [] |}.

(** A transport that accepts the upgrade, and one that refuses it. *)
Definition accepting : Server := true.
Definition refusing : Server := false.

End Example.

(** ** Further readings of a trace and of a response *)

Section TraceKinds.
Context `{Externals}.

Definition is_registry_lookup (e : Event) : bool :=
  match e with EvFindInRouteRegistry _ => true | _ => false end.

Definition is_middleware_call (e : Event) : bool :=
  match e with EvStartMiddleware _ _ _ => true | _ => false end.

Definition is_log_event (e : Event) : bool :=
  match e with EvLog _ _ _ => true | _ => false end.

(** The calls that dispatch has no live path to: the transport's upgrade,
    the failure callback, the console and the error level of the logger. *)
Definition is_outside_dispatch (e : Event) : bool :=
  match e with
  | EvUpgrade _ _ _ | EvOnUpgradeFailed _ | EvConsoleLog _ | EvLog _ error _ => true
  | _ => false
  end.

(** A log line of the server component at info level. *)
Definition server_info_line (e : Event) : Prop :=
  match e with
  | EvLog component level _ => component = "SERVER" /\ level = info
  | _ => True
  end.

(** [iface.getLogger()]: the receiver is the interface object, whose
    properties are [json] and [getLogger]; it has no [ServerLogger]. *)
Definition interface_call_getLogger (iface : ServerDriverInterface)
    : option (ServerLogger CommandLineDriver) :=
  interface_getLogger iface None.

End TraceKinds.

(** A second server on the same port, with no route and no middleware link. *)
Module Variants.
Import Example.

Definition driver_config : ServerDriverConfig :=
  {| config_WebSocketDriver := tt;
     config_ServerLogger := ServerLogger_new tt;
     config_RouteDriver := RouteDriver_of_registry registry;
     config_AuthorizationDriver := tt;
     config_MiddlewareDriver := MiddlewareDriver_of_chain chain;
     config_port := 3000;
     config_rootUrl := "/" |}.

Definition open_config : ServerDriverConfig :=
  {| config_WebSocketDriver := tt;
     config_ServerLogger := ServerLogger_new tt;
     config_RouteDriver := RouteDriver_of_registry ∅;
     config_AuthorizationDriver := tt;
     config_MiddlewareDriver := MiddlewareDriver_of_chain [];
     config_port := 3000;
     config_rootUrl := "/api" |}.

Definition open_driver : ServerDriver := ServerDriver_new open_config.

End Variants.

(* ===================================================================== *)
(** * Properties *)
(* ===================================================================== *)

(** ** The response builder *)

Section ResponseFacts.
Context `{Externals}.

Lemma returned_Normal {A : Type} (c : completion A) (Hc : completes c) (a : A) :
  c = Normal a -> returned c Hc = a.
Proof. intros ->. reflexivity. Qed.





Lemma json_headers (payload : Payload) (st : Z) (r : Response) :
  json payload st = Normal r ->
  headers r = [("content-type", "application/json")] /\ status r = st.
Proof.
  unfold json, Response_new. cbn [init_status init_headers].
  destruct (JSON.stringify _) as [text | e]; [| discriminate].
  destruct (Response_status_ok st); [| discriminate].
  intros [= <-]. by destruct text.
Qed.

Lemma forbidden_fields :
  json [("message", JSON.Str "Forbidden.")] 403 = Normal forbidden_response
  /\ forbidden_response
     = {| body := Some ("{" +:+ JSON.dquote +:+ "message" +:+ JSON.dquote +:+ ":"
                            +:+ JSON.dquote +:+ "Forbidden." +:+ JSON.dquote +:+ "}");
          headers := [("content-type", "application/json")];
          status := 403 |}.
Proof. split; reflexivity. Qed.

Lemma not_found_fields :
  Response_new (Some "Not Found") {| init_headers := []; init_status := 404 |}
  = Normal not_found_response
  /\ not_found_response
     = {| body := Some "Not Found";
          headers := if Response_types_text
                     then [("content-type", "text/plain;charset=UTF-8")] else [];
          status := 404 |}.
Proof. split; [reflexivity |]. unfold not_found_response, Response_new. simpl.
  by destruct Response_types_text. Qed.

Lemma not_found_untyped_json :
  Headers_get "content-type" (headers not_found_response) <> Some "application/json".
Proof.
  rewrite (proj2 not_found_fields). simpl. by destruct Response_types_text.
Qed.

Lemma not_found_not_json : ~ json_response not_found_response.
Proof.
  intros [payload Hp]. apply json_headers in Hp as [Hheaders _].
  apply not_found_untyped_json. by rewrite Hheaders.
Qed.

End ResponseFacts.

Section ResponseExamples.
Import Example.

Example json_health :
  json [("status", JSON.Str "ok")] 200
  = Normal {| body := Some ("{" +:+ JSON.dquote +:+ "status" +:+ JSON.dquote +:+ ":"
                                +:+ JSON.dquote +:+ "ok" +:+ JSON.dquote +:+ "}");
              headers := [("content-type", "application/json")];
              status := 200 |}.
Proof. reflexivity. Qed.

Example json_skips_undefined :
  json [("a", JSON.Undefined); ("f", JSON.Function JSON.Null);
        ("b", JSON.Array [JSON.Undefined;
                          JSON.Number {| JSON.is_finite := true; JSON.to_string := "1e+21" |};
                          JSON.Number {| JSON.is_finite := false; JSON.to_string := "NaN" |}])]
       201
  = Normal {| body := Some ("{" +:+ JSON.dquote +:+ "b" +:+ JSON.dquote +:+ ":[null,1e+21,null]}");
              headers := [("content-type", "application/json")];
              status := 201 |}.
Proof. reflexivity. Qed.

Example json_toJSON_undefined :
  json [("a", JSON.Null); ("toJSON", JSON.Function JSON.Undefined)] 200
  = Normal {| body := None;
              headers := [("content-type", "application/json")];
              status := 200 |}.
Proof. reflexivity. Qed.

Example json_BigInt_throws :
  json [("n", JSON.Array [JSON.BigInt 1])] 600 = Throw TypeError.
Proof. reflexivity. Qed.


End ResponseExamples.


Section ResponseWitness.
Import Example.


End ResponseWitness.

(** ** The handlers, as equations *)

Section DriverFacts.
Context `{Externals}.

Ltac steps := unfold mbind, M_bind, mret, M_ret; simpl.

Lemma handleWebRoute_unfold this req server route w :
  handleWebRoute this req server route w
  = let ctx0 := built_context this req server route in
    let '(res, ctx1, w1) := startMiddleware (this_MiddlewareDriver this) ctx0 w in
    if strict_equals res (JsBool false) then
      (Some forbidden_response, w1, [EvStartMiddleware ctx0 res ctx1])
    else
      let '(r, ctx2, w2) := handle (handler route) ctx1 w1 in
      (r, w2, [EvStartMiddleware ctx0 res ctx1; EvHandle (path route) ctx1 ctx2]).
Proof.
  unfold handleWebRoute, call_startMiddleware, call_handle, built_context. steps.
  destruct (startMiddleware _ _ w) as [[res ctx1] w1]. simpl.
  destruct (strict_equals res (JsBool false)); simpl; [reflexivity |].
  destruct (handle _ ctx1 w1) as [[r ctx2] w2]. reflexivity.
Qed.

Lemma handleWebSocketRoute_unfold this req server route w :
  handleWebSocketRoute this req server route w
  = let ctx0 := built_context this req server route in
    let logger := this_ServerLogger this in
    let connected := "WebSocket route " +:+ path route +:+ " connected" in
    let w1 := Logger_log logger info "context initialized"
                (Logger_log logger info connected w) in
    let '(_, ctx1, w2) := handle (handler route) ctx0 w1 in
    (None,
     onUpgradeSuccess (handler route)
       (Logger_log logger info "Upgraded request to websocket." w2),
     [EvLog (componentName logger) info connected;
      EvLog (componentName logger) info "context initialized";
      EvHandle (path route) ctx0 ctx1;
      EvLog (componentName logger) info "Upgraded request to websocket.";
      EvOnUpgradeSuccess (path route)]).
Proof.
  unfold handleWebSocketRoute, call_log, call_handle, call_onUpgradeSuccess,
    built_context. steps.
  destruct (handle _ _ _) as [[r ctx1] w2]. reflexivity.
Qed.

Lemma bunFetchHandler_unfold this req server w :
  bunFetchHandler this req server w
  = let found := EvFindInRouteRegistry (url req) in
    match findInRouteRegistry (this_RouteDriver this) (url req) with
    | None => (Some not_found_response, w, [found])
    | Some route =>
        let '(r, w', tr) :=
          match type route with
          | WEB => handleWebRoute this req server route w
          | WEB_SOCKET => handleWebSocketRoute this req server route w
          end in
        (r, w', found :: tr)
    end.
Proof.
  unfold bunFetchHandler, call_findInRouteRegistry. steps.
  destruct (findInRouteRegistry _ _) as [route|]; [| reflexivity].
  destruct (type route).
  - destruct (handleWebRoute _ _ _ _ _) as [[r w'] tr]. reflexivity.
  - destruct (handleWebSocketRoute _ _ _ _ _) as [[r w'] tr]. reflexivity.
Qed.

Lemma fetch_serve_unfold this req server w :
  fetch (serve this) req server w
  = let '(upgraded, w') := Server_upgrade server req w in
    (if upgraded then None else Some not_found_response, w',
     [EvUpgrade server req upgraded]).
Proof.
  unfold serve, call_upgrade. steps.
  destruct (Server_upgrade server req w) as [[] w']; reflexivity.
Qed.

End DriverFacts.

(** ** Dispatch *)

Section Dispatch.
Context `{Externals}.

(** Every run of [bunFetchHandler] starts by asking the route registry. *)
Lemma bunFetchHandler_asks_registry this req server w :
  exists tr, trace (bunFetchHandler this req server w)
             = EvFindInRouteRegistry (url req) :: tr.
Proof.
  rewrite bunFetchHandler_unfold. cbv zeta.
  destruct (findInRouteRegistry _ _) as [route|]; [| eexists; reflexivity].
  destruct (match type route with
            | WEB => handleWebRoute this req server route w
            | WEB_SOCKET => handleWebSocketRoute this req server route w
            end) as [[r w'] tr].
  exists tr. reflexivity.
Qed.

(** C3: the [fetch] that [serve] installs calls [server.upgrade(req)] and
    nothing else, for every request: it returns nothing when the upgrade
    succeeds and otherwise the response [new Response('Not Found', {status:
    404})], whose status is 404 and whose body is the plain text [Not Found],
    not a JSON response.  No route is looked up and no middleware or handler
    runs (so [bunFetchHandler], whose first step is the registry lookup, is
    not what runs), and the handler is the same whatever route and
    middleware drivers the server was built with. *)
Theorem serve_fetch_only_upgrades this req server w :
  let r := fetch (serve this) req server w in
  let up := Server_upgrade server req w in
  trace r = [EvUpgrade server req up.1]
  /\ world_after r = up.2
  /\ result r = (if up.1 then None else Some not_found_response)
  /\ (Response_new (Some "Not Found") {| init_headers := []; init_status := 404 |}
      = Normal not_found_response
      /\ body not_found_response = Some "Not Found"
      /\ status not_found_response = 404%Z
      /\ Headers_get "content-type" (headers not_found_response)
         <> Some "application/json")
  /\ (forall e, e ∈ trace r -> is_dispatch_step e = false)
  /\ trace r <> trace (bunFetchHandler this req server w)
  /\ (forall this', fetch (serve this') req server w = r).
Proof.
  cbv zeta. rewrite fetch_serve_unfold.
  destruct (Server_upgrade server req w) as [upgraded w'] eqn:Hup. simpl.
  split; [reflexivity |]. split; [reflexivity |]. split; [reflexivity |].
  split.
  { split; [reflexivity |]. split; [reflexivity |]. split; [reflexivity |].
    apply not_found_untyped_json. }
  split.
  { intros e He. apply list_elem_of_singleton in He. subst e. reflexivity. }
  split.
  { destruct (bunFetchHandler_asks_registry this req server w) as [tr ->].
    discriminate. }
  intros this'. pose proof (fetch_serve_unfold this' req server w) as Hsame.
  rewrite Hup in Hsame. exact Hsame.
Qed.

(** C4, as the code has it: when the registry has no entry for the url,
    dispatch answers with one fixed response, [new Response('Not Found',
    {status: 404})]: status 404 and the plain text [Not Found] as body, not
    a JSON response, whatever the request, the transport and the world are;
    it calls nothing but the registry, so the answer cannot depend on a kind
    of route. *)
Theorem unknown_route_plain_404 this req server w :
  findInRouteRegistry (this_RouteDriver this) (url req) = None ->
  bunFetchHandler this req server w
  = (Some not_found_response, w, [EvFindInRouteRegistry (url req)])
  /\ Response_new (Some "Not Found") {| init_headers := []; init_status := 404 |}
     = Normal not_found_response
  /\ status not_found_response = 404%Z
  /\ body not_found_response = Some "Not Found"
  /\ Headers_get "content-type" (headers not_found_response) <> Some "application/json"
  /\ ~ json_response not_found_response.
Proof.
  intros Hnone. rewrite bunFetchHandler_unfold. cbv zeta. rewrite Hnone.
  split; [reflexivity |]. split; [reflexivity |]. split; [reflexivity |].
  split; [reflexivity |].
  split; [apply not_found_untyped_json | apply not_found_not_json].
Qed.

(** C5: on a request/response route, when [startMiddleware] answers
    [false], dispatch returns [json({message: 'Forbidden.'}, 403)], a 403
    response of type [application/json] whose body is
    [{"message":"Forbidden."}], and the route's handler is not called: the
    trace ends at the middleware and the world is as the middleware left
    it. *)
Theorem web_route_rejected_403 this req server route w ctx1 w1 :
  findInRouteRegistry (this_RouteDriver this) (url req) = Some route ->
  type route = WEB ->
  startMiddleware (this_MiddlewareDriver this) (built_context this req server route) w
  = (JsBool false, ctx1, w1) ->
  let r := bunFetchHandler this req server w in
  json [("message", JSON.Str "Forbidden.")] 403 = Normal forbidden_response
  /\ result r = Some forbidden_response
  /\ result r
     = Some {| body := Some ("{" +:+ JSON.dquote +:+ "message" +:+ JSON.dquote +:+ ":"
                                 +:+ JSON.dquote +:+ "Forbidden." +:+ JSON.dquote +:+ "}");
               headers := [("content-type", "application/json")];
               status := 403 |}
  /\ world_after r = w1
  /\ trace r = [EvFindInRouteRegistry (url req);
                EvStartMiddleware (built_context this req server route) (JsBool false) ctx1]
  /\ List.filter is_handle_event (trace r) = [].
Proof.
  intros Hroute Hweb Hmw. cbv zeta.
  rewrite bunFetchHandler_unfold. cbv zeta. rewrite Hroute, Hweb.
  rewrite handleWebRoute_unfold. cbv zeta. rewrite Hmw. simpl.
  repeat split.
Qed.

(** C7: on a request/response route, when [startMiddleware] answers
    anything but [false], dispatch calls [route.handler.handle] once, with
    the context as the middleware left it, and returns what the handler
    returned, unchanged; the world is as the handler left it. *)
Theorem web_route_accepted_handler_verbatim this req server route w res ctx1 w1 r ctx2 w2 :
  findInRouteRegistry (this_RouteDriver this) (url req) = Some route ->
  type route = WEB ->
  startMiddleware (this_MiddlewareDriver this) (built_context this req server route) w
  = (res, ctx1, w1) ->
  strict_equals res (JsBool false) = false ->
  handle (handler route) ctx1 w1 = (r, ctx2, w2) ->
  bunFetchHandler this req server w
  = (r, w2, [EvFindInRouteRegistry (url req);
             EvStartMiddleware (built_context this req server route) res ctx1;
             EvHandle (path route) ctx1 ctx2])
  /\ List.filter is_handle_event (trace (bunFetchHandler this req server w))
     = [EvHandle (path route) ctx1 ctx2].
Proof.
  intros Hroute Hweb Hmw Hne Hh.
  assert (bunFetchHandler this req server w
          = (r, w2, [EvFindInRouteRegistry (url req);
                     EvStartMiddleware (built_context this req server route) res ctx1;
                     EvHandle (path route) ctx1 ctx2])) as Heq.
  { rewrite bunFetchHandler_unfold. cbv zeta. rewrite Hroute, Hweb.
    rewrite handleWebRoute_unfold. cbv zeta. rewrite Hmw, Hne, Hh. reflexivity. }
  rewrite Heq. split; reflexivity.
Qed.

(** C10: for every exchange whose route resolves, the first callee to
    receive a context receives one whose required level is the route's
    [authLevel] and whose request and server are the inbound ones; and
    every callee receives the context exactly as the previous callee left
    it: between building it and handing it off the driver changes no
    field of it. *)
Theorem context_built_from_route_and_untouched this req srv route w :
  findInRouteRegistry (this_RouteDriver this) (url req) = Some route ->
  exists ctx0 out rest,
    handoffs (trace (bunFetchHandler this req srv w)) = (ctx0, out) :: rest
    /\ authLevelForRequestedRoute ctx0 = authLevel route
    /\ request ctx0 = req
    /\ server ctx0 = srv
    /\ untouched ctx0 (handoffs (trace (bunFetchHandler this req srv w))).
Proof.
  intros Hroute. exists (built_context this req srv route).
  rewrite bunFetchHandler_unfold. cbv zeta. rewrite Hroute.
  destruct (type route).
  - rewrite handleWebRoute_unfold. cbv zeta.
    destruct (startMiddleware _ _ w) as [[res ctx1] w1].
    destruct (strict_equals res (JsBool false)).
    + exists ctx1, []. simpl. repeat split.
    + destruct (handle _ ctx1 w1) as [[r ctx2] w2].
      exists ctx1, [(ctx1, ctx2)]. simpl. repeat split.
  - rewrite handleWebSocketRoute_unfold. cbv zeta.
    destruct (handle _ _ _) as [[r ctx1] w2].
    exists ctx1, []. simpl. repeat split.
Qed.

(** On a web-socket route the driver never consults the middleware and
    always reports success, whatever the transport would answer. *)
Lemma handleWebSocketRoute_always_succeeds this req server route w :
  let r := handleWebSocketRoute this req server route w in
  result r = None
  /\ EvOnUpgradeSuccess (path route) ∈ trace r
  /\ (forall e, e ∈ trace r ->
        handoff e = None \/ is_handle_event e = true)
  /\ List.filter is_error_log (trace r) = [].
Proof.
  cbv zeta. rewrite handleWebSocketRoute_unfold. cbv zeta.
  destruct (handle _ _ _) as [[r ctx1] w2]. simpl.
  split; [reflexivity |]. split; [set_solver |]. split; [| reflexivity].
  intros e He. repeat (apply elem_of_cons in He as [-> | He]; [simpl; auto |]).
  by apply elem_of_nil in He.
Qed.

End Dispatch.

(** ** The middleware chain *)

Section MiddlewareChainFacts.
Context `{Externals}.

Lemma state_after_cons n link rest ctx w :
  state_after (S n) (link :: rest) ctx w
  = state_after n rest (link_step (ctx, w) link).1 (link_step (ctx, w) link).2.
Proof.
  unfold state_after. simpl. by destruct (link_step (ctx, w) link).
Qed.

Lemma verdict_head link rest ctx w :
  verdict 0 (link :: rest) ctx w = Some (link ctx w).1.1.
Proof. reflexivity. Qed.

Lemma verdict_cons i link rest ctx w :
  verdict (S i) (link :: rest) ctx w
  = verdict i rest (link_step (ctx, w) link).1 (link_step (ctx, w) link).2.
Proof.
  unfold verdict. simpl. destruct (rest !! i); [| reflexivity].
  by rewrite state_after_cons.
Qed.

(** The first reject, at 0-based position [i], stops the chain there. *)
Lemma run_from_first_reject links : forall a ctx w i,
  verdict i links ctx w = Some false ->
  (forall j, j < i -> verdict j links ctx w = Some true) ->
  run_from a links ctx w
  = (Rejected, (state_after (S i) links ctx w).1, (state_after (S i) links ctx w).2,
     seq a (S i)).
Proof.
  induction links as [| link rest IH]; intros a ctx w i Hrej Hbefore.
  - discriminate Hrej.
  - destruct i as [| i].
    + rewrite verdict_head in Hrej. injection Hrej as Hrej.
      unfold state_after, link_step. simpl.
      destruct (link ctx w) as [[continue ctx1] w1]. simpl in *. subst continue.
      reflexivity.
    + pose proof (Hbefore 0 ltac:(lia)) as Hhead.
      rewrite verdict_head in Hhead. injection Hhead as Hhead.
      rewrite verdict_cons in Hrej. rewrite state_after_cons.
      assert (forall j, j < i ->
                verdict j rest (link_step (ctx, w) link).1 (link_step (ctx, w) link).2
                = Some true) as Hrest.
      { intros j Hj. rewrite <- verdict_cons. apply Hbefore. lia. }
      unfold link_step in *. simpl in *.
      destruct (link ctx w) as [[continue ctx1] w1]. simpl in *. subst continue.
      rewrite (IH (S a) ctx1 w1 i Hrej Hrest). reflexivity.
Qed.

(** When no link rejects, all of them run and the chain accepts. *)
Lemma run_from_all_accept links : forall a ctx w,
  (forall j, j < length links -> verdict j links ctx w = Some true) ->
  run_from a links ctx w
  = (Accepted, (state_after (length links) links ctx w).1,
     (state_after (length links) links ctx w).2, seq a (length links)).
Proof.
  induction links as [| link rest IH]; intros a ctx w Hall.
  - reflexivity.
  - pose proof (Hall 0 ltac:(simpl; lia)) as Hhead.
    rewrite verdict_head in Hhead. injection Hhead as Hhead.
    assert (forall j, j < length rest ->
              verdict j rest (link_step (ctx, w) link).1 (link_step (ctx, w) link).2
              = Some true) as Hrest.
    { intros j Hj. rewrite <- verdict_cons. apply Hall. simpl. lia. }
    cbn [length]. rewrite state_after_cons.
    unfold link_step in *. simpl in *.
    destruct (link ctx w) as [[continue ctx1] w1]. simpl in *. subst continue.
    rewrite (IH (S a) ctx1 w1 Hrest). reflexivity.
Qed.

(** C8: a chain without links accepts and runs nothing.  If the link at
    position [k] (counted from 1) answers reject and every link before it
    answers continue, the chain is rejected, the links that ran are exactly
    those at positions 1 to [k], once each and in that order, and the
    context and the world are those left by these [k] links: no effect of a
    later link is there.  If no link rejects, all run in order and the
    chain accepts. *)
Theorem middleware_chain_order (links : list MiddlewareLink)
    (ctx : RouteHandleContext) (w : World) :
  run [] ctx w = (Accepted, ctx, w, [])
  /\ (forall k, 1 <= k ->
        verdict (k - 1) links ctx w = Some false ->
        (forall j, 1 <= j < k -> verdict (j - 1) links ctx w = Some true) ->
        run links ctx w
        = (Rejected, (state_after k links ctx w).1, (state_after k links ctx w).2,
           seq 1 k))
  /\ ((forall j, 1 <= j <= length links -> verdict (j - 1) links ctx w = Some true) ->
        run links ctx w
        = (Accepted, (state_after (length links) links ctx w).1,
           (state_after (length links) links ctx w).2, seq 1 (length links))).
Proof.
  split; [reflexivity |]. split.
  - intros k Hk Hrej Hbefore. unfold run.
    destruct k as [| i]; [lia |].
    replace (S i - 1) with i in Hrej by lia.
    apply run_from_first_reject; [exact Hrej |].
    intros j Hj. specialize (Hbefore (S j) ltac:(lia)).
    by replace (S j - 1) with j in Hbefore by lia.
  - intros Hall. unfold run. apply run_from_all_accept.
    intros j Hj. specialize (Hall (S j) ltac:(lia)).
    by replace (S j - 1) with j in Hall by lia.
Qed.

(** What the driver sees of a chain: [false] exactly when it rejects. *)
Lemma startMiddleware_of_chain links ctx w :
  (startMiddleware (MiddlewareDriver_of_chain links) ctx w).1.1
  = JsBool (match (run links ctx w).1.1.1 with Accepted => true | Rejected => false end).
Proof.
  simpl. by destruct (run links ctx w) as [[[[] ctx'] w'] ran].
Qed.

End MiddlewareChainFacts.

(** ** The route registry *)

Section RouteRegistryFacts.
Context `{Externals}.

Lemma register_fresh (route : Route) (registry : gmap string Route) :
  resolve (path route) registry = None ->
  (register route registry).1 = RegisterOk
  /\ resolve (path route) (register route registry).2 = Some route.
Proof.
  unfold resolve, register. intros ->. simpl. split; [reflexivity |].
  apply lookup_insert_eq.
Qed.

Lemma register_keeps_others (route : Route) (registry : gmap string Route) (p : string) :
  p <> path route ->
  resolve p (register route registry).2 = resolve p registry.
Proof.
  unfold resolve, register. intros Hne.
  destruct (registry !! path route); simpl; [reflexivity |].
  by apply lookup_insert_ne.
Qed.

(** C9: in every registry, registering a route whose path is taken
    answers [DuplicatePathError], leaves the registry as it was, and the
    path still resolves to the route that was there. *)
Theorem register_duplicate_refused (route original : Route) (registry : gmap string Route) :
  resolve (path route) registry = Some original ->
  (register route registry).1 = DuplicatePathError
  /\ (register route registry).2 = registry
  /\ resolve (path route) (register route registry).2 = Some original.
Proof.
  unfold resolve, register. intros Htaken. rewrite Htaken. simpl.
  split; [reflexivity |]. split; [reflexivity | exact Htaken].
Qed.

End RouteRegistryFacts.

(** ** The small server, exchange by exchange *)

Section ExampleFacts.
Import Example.

Lemma registry_resolves :
  resolve "/health" registry = Some health
  /\ resolve "/admin" registry = Some admin
  /\ resolve "/chat" registry = Some chat
  /\ resolve "/feed" registry = Some feed
  /\ resolve "/missing" registry = None.
Proof. repeat split; vm_compute; reflexivity. Qed.

(** C1, on the code: [/chat] needs level 1 and the caller has level 0, so
    the middleware chain rejects the exchange; yet dispatch of [/chat]
    never starts the middleware, returns nothing (no 403 response), loads
    the context into the handler, logs the upgrade as done and calls
    [onUpgradeSuccess]. *)
Theorem socket_route_ignores_rejecting_middleware :
  let ctx0 := built_context driver (get "/chat") accepting chat in
  let r := bunFetchHandler driver (get "/chat") accepting [] in
  findInRouteRegistry (this_RouteDriver driver) "/chat" = Some chat
  /\ type chat = WEB_SOCKET
  /\ (run chain ctx0 []).1.1.1 = Rejected
  /\ (startMiddleware (this_MiddlewareDriver driver) ctx0 []).1.1 = JsBool false
  /\ result r = None
  /\ trace r = [EvFindInRouteRegistry "/chat";
                EvLog "SERVER" info "WebSocket route /chat connected";
                EvLog "SERVER" info "context initialized";
                EvHandle "/chat" ctx0 ctx0;
                EvLog "SERVER" info "Upgraded request to websocket.";
                EvOnUpgradeSuccess "/chat"]
  /\ world_after r = ["SERVER info WebSocket route /chat connected";
                      "SERVER info context initialized";
                      "chat context loaded";
                      "SERVER info Upgraded request to websocket.";
                      "chat connection open"].
Proof. cbv zeta. repeat split; vm_compute; reflexivity. Qed.

(** C2, on the code: with a transport that refuses every upgrade, dispatch
    of the web-socket route [/feed] never asks the transport, logs the
    upgrade as done at info level and calls [onUpgradeSuccess]; it neither
    calls [onUpgradeFailed] nor logs at error level, and the handler ends
    with its connection open. *)
Theorem socket_route_reports_success_on_refusing_transport :
  let r := bunFetchHandler driver (get "/feed") refusing [] in
  (forall w, (Server_upgrade refusing (get "/feed") w).1 = false)
  /\ findInRouteRegistry (this_RouteDriver driver) "/feed" = Some feed
  /\ type feed = WEB_SOCKET
  /\ result r = None
  /\ List.filter is_upgrade_step (trace r) = [EvOnUpgradeSuccess "/feed"]
  /\ List.filter is_error_log (trace r) = []
  /\ last (trace r) = Some (EvOnUpgradeSuccess "/feed")
  /\ world_after r = ["SERVER info WebSocket route /feed connected";
                      "SERVER info context initialized";
                      "feed context loaded";
                      "SERVER info Upgraded request to websocket.";
                      "feed connection open"].
Proof.
  cbv zeta. split; [intros w; reflexivity |].
  repeat split; vm_compute; reflexivity.
Qed.

(** C4, as stated, fails: [/missing] has no registry entry, and the 404
    response of its dispatch is not one that [json] builds. *)
Lemma unknown_route_response_not_json :
  findInRouteRegistry (this_RouteDriver driver) (url (get "/missing")) = None
  /\ exists resp,
       result (bunFetchHandler driver (get "/missing") accepting []) = Some resp
       /\ status resp = 404%Z
       /\ Headers_get "content-type" (headers resp) <> Some "application/json"
       /\ ~ json_response resp.
Proof.
  split; [vm_compute; reflexivity |].
  exists not_found_response.
  split; [vm_compute; reflexivity |]. split; [reflexivity |].
  split; [discriminate | apply not_found_not_json].
Qed.

Lemma unknown_route_plain_404_witness :
  findInRouteRegistry (this_RouteDriver driver) (url (get "/missing")) = None
  /\ bunFetchHandler driver (get "/missing") refusing ["earlier"]
     = (Some not_found_response, ["earlier"], [EvFindInRouteRegistry "/missing"]).
Proof.
  assert (findInRouteRegistry (this_RouteDriver driver) (url (get "/missing")) = None)
    as Hnone by reflexivity.
  split; [exact Hnone |].
  exact (proj1 (unknown_route_plain_404 driver (get "/missing") refusing ["earlier"] Hnone)).
Defined.

Lemma web_route_rejected_403_witness :
  let ctx0 := built_context driver (get "/admin") accepting admin in
  startMiddleware (this_MiddlewareDriver driver) ctx0 []
  = (JsBool false, ctx0, ["audit /admin"; "authorization"])
  /\ result (bunFetchHandler driver (get "/admin") accepting [])
     = Some forbidden_response
  /\ world_after (bunFetchHandler driver (get "/admin") accepting [])
     = ["audit /admin"; "authorization"].
Proof.
  cbv zeta.
  assert (startMiddleware (this_MiddlewareDriver driver)
            (built_context driver (get "/admin") accepting admin) []
          = (JsBool false, built_context driver (get "/admin") accepting admin,
             ["audit /admin"; "authorization"])) as Hmw by reflexivity.
  split; [exact Hmw |].
  pose proof (web_route_rejected_403 driver (get "/admin") accepting admin [] _ _
                eq_refl eq_refl Hmw) as Hthm.
  cbv zeta in Hthm. destruct Hthm as (_ & Hres & _ & Hworld & _).
  split; [exact Hres | exact Hworld].
Defined.

Lemma web_route_accepted_handler_verbatim_witness :
  let ctx0 := built_context driver (get "/health") accepting health in
  bunFetchHandler driver (get "/health") accepting []
  = (value_of (json [("status", JSON.Str "ok")] 200),
     ["audit /health"; "authorization"; "audit /health"; "health handled"],
     [EvFindInRouteRegistry "/health";
      EvStartMiddleware ctx0 (JsBool true) ctx0;
      EvHandle "/health" ctx0 ctx0]).
Proof.
  cbv zeta.
  exact (proj1 (web_route_accepted_handler_verbatim driver (get "/health") accepting health
                  [] (JsBool true) _ _ _ _ _
                  eq_refl eq_refl
                  eq_refl eq_refl
                  eq_refl)).
Defined.

Lemma context_built_from_route_and_untouched_witness :
  findInRouteRegistry (this_RouteDriver driver) (url (get "/chat")) = Some chat
  /\ exists ctx0 out rest,
       handoffs (trace (bunFetchHandler driver (get "/chat") accepting []))
       = (ctx0, out) :: rest
       /\ authLevelForRequestedRoute ctx0 = authLevel chat
       /\ request ctx0 = get "/chat"
       /\ server ctx0 = accepting
       /\ untouched ctx0 (handoffs (trace (bunFetchHandler driver (get "/chat") accepting []))).
Proof.
  assert (findInRouteRegistry (this_RouteDriver driver) (url (get "/chat")) = Some chat)
    as Hchat by reflexivity.
  split; [exact Hchat |].
  exact (context_built_from_route_and_untouched driver (get "/chat") accepting chat [] Hchat).
Defined.

Lemma middleware_chain_order_witness :
  let ctx0 := built_context driver (get "/admin") accepting admin in
  verdict (2 - 1) chain ctx0 [] = Some false
  /\ (forall j, 1 <= j < 2 -> verdict (j - 1) chain ctx0 [] = Some true)
  /\ run chain ctx0 [] = (Rejected, ctx0, ["audit /admin"; "authorization"], [1; 2]).
Proof.
  cbv zeta.
  assert (forall j, 1 <= j < 2 ->
            verdict (j - 1) chain (built_context driver (get "/admin") accepting admin) []
            = Some true) as Hbefore.
  { intros j Hj. assert (j = 1) as -> by lia. reflexivity. }
  split; [reflexivity |]. split; [exact Hbefore |].
  exact (proj1 (proj2 (middleware_chain_order chain
                         (built_context driver (get "/admin") accepting admin) []))
           2 ltac:(lia) eq_refl Hbefore).
Defined.

Lemma register_duplicate_refused_witness :
  resolve (path impostor) registry = Some health
  /\ (register impostor registry).1 = DuplicatePathError
  /\ resolve "/health" (register impostor registry).2 = Some health.
Proof.
  assert (resolve (path impostor) registry = Some health) as Htaken
    by reflexivity.
  split; [exact Htaken |].
  destruct (register_duplicate_refused impostor health registry Htaken) as (Hres & _ & Hkept).
  split; [exact Hres | exact Hkept].
Defined.

End ExampleFacts.

(* ===================================================================== *)
(** * Further properties of the code *)
(* ===================================================================== *)

(** ** More of the driver *)

Section DriverMore.
Context `{Externals}.

Lemma strict_equals_false_iff (res : JsValue) :
  strict_equals res (JsBool false) = true <-> res = JsBool false.
Proof.
  destruct res as [| | [] | n | s | ref]; simpl; split; intros Hres;
    (reflexivity || discriminate Hres).
Qed.

(** Splits a dispatch into its five ways through the code. *)
Ltac dispatch_cases w :=
  rewrite bunFetchHandler_unfold; cbv zeta;
  destruct (findInRouteRegistry _ _) as [found |] eqn:Hroute;
  [ destruct (type found) eqn:Htype;
    [ rewrite handleWebRoute_unfold; cbv zeta;
      destruct (startMiddleware _ _ w) as [[res ctx1] w1] eqn:Hmw;
      destruct (strict_equals res (JsBool false)) eqn:Hstrict;
      [ | destruct (handle _ ctx1 w1) as [[r ctx2] w2] eqn:Hh ]
    | rewrite handleWebSocketRoute_unfold; cbv zeta;
      destruct (handle _ _ _) as [[r ctx1] w2] eqn:Hh ]
  | ].

(** X3: [upgrade2WebSocket] asks the transport once and writes the answer
    to the console before it returns.  A refused upgrade gives the 403
    response [{"message":"Forbidden."}], the very response a request/response
    route gives when its middleware rejects; otherwise the value returned is
    [true], never [false]. *)
Theorem upgrade2WebSocket_outcome this req srv w :
  let up := Server_upgrade srv req w in
  let r := upgrade2WebSocket this req srv w in
  trace r = [EvUpgrade srv req up.1; EvConsoleLog (if up.1 then "true" else "false")]
  /\ world_after r = console_log (if up.1 then "true" else "false") up.2
  /\ json [("message", JSON.Str "Forbidden.")] 403 = Normal forbidden_response
  /\ result r = (if up.1 then UpgradeValue true else UpgradeRefused forbidden_response)
  /\ result r <> UpgradeValue false
  /\ (forall route w0 ctx1 w1,
        up.1 = false ->
        startMiddleware (this_MiddlewareDriver this) (built_context this req srv route) w0
        = (JsBool false, ctx1, w1) ->
        exists resp, result r = UpgradeRefused resp
                     /\ result (handleWebRoute this req srv route w0) = Some resp).
Proof.
  cbv zeta. unfold upgrade2WebSocket, call_upgrade, call_console_log.
  unfold mbind, M_bind, mret, M_ret.
  destruct (Server_upgrade srv req w) as [[] w'] eqn:Hup; simpl.
  - split; [reflexivity |]. split; [reflexivity |]. split; [reflexivity |].
    split; [reflexivity |].
    split; [discriminate | intros ? ? ? ? Hno; discriminate Hno].
  - split; [reflexivity |]. split; [reflexivity |]. split; [reflexivity |].
    split; [reflexivity |].
    split; [discriminate |]. intros route w0 ctx1 w1 _ Hmw.
    eexists. split; [reflexivity |].
    rewrite handleWebRoute_unfold. cbv zeta. rewrite Hmw. reflexivity.
Qed.

(** X4: a web-socket route is handled without a look at the middleware,
    the route registry, the port or the root url of the server: two servers
    that share their logger, their web-socket and authorization drivers and
    their interface handle it alike, in every world. *)
Theorem handleWebSocketRoute_blind_to_middleware this this' req srv route w :
  this_ServerLogger this = this_ServerLogger this' ->
  this_WebSocketDriver this = this_WebSocketDriver this' ->
  this_AuthorizationDriver this = this_AuthorizationDriver this' ->
  this_ServerDriverInterface this = this_ServerDriverInterface this' ->
  handleWebSocketRoute this req srv route w = handleWebSocketRoute this' req srv route w.
Proof.
  intros Hlog Hws Hauth Hiface. rewrite !handleWebSocketRoute_unfold.
  unfold built_context. rewrite Hlog, Hws, Hauth, Hiface. reflexivity.
Qed.

(** X5: on every web-socket route the driver makes five calls and no
    other, in this order: the info line [WebSocket route <path> connected],
    the info line [context initialized], [handle] with the context it built,
    the info line [Upgraded request to websocket.] and [onUpgradeSuccess].
    The handler is given the context before any upgrade is reported,
    [onUpgradeSuccess] is the only upgrade step and comes last, the
    middleware is not called and nothing is returned; the world passes
    through the calls in that order. *)
Theorem handleWebSocketRoute_loads_then_reports this req srv route w :
  let r := handleWebSocketRoute this req srv route w in
  let logger := this_ServerLogger this in
  let ctx0 := built_context this req srv route in
  let w1 := Logger_log logger info "context initialized"
              (Logger_log logger info
                 ("WebSocket route " +:+ path route +:+ " connected") w) in
  let handled := handle (handler route) ctx0 w1 in
  result r = None
  /\ trace r
     = [EvLog (componentName logger) info
          ("WebSocket route " +:+ path route +:+ " connected");
        EvLog (componentName logger) info "context initialized";
        EvHandle (path route) ctx0 handled.1.2;
        EvLog (componentName logger) info "Upgraded request to websocket.";
        EvOnUpgradeSuccess (path route)]
  /\ world_after r
     = onUpgradeSuccess (handler route)
         (Logger_log logger info "Upgraded request to websocket." handled.2)
  /\ List.filter is_upgrade_step (trace r) = [EvOnUpgradeSuccess (path route)]
  /\ List.filter is_middleware_call (trace r) = [].
Proof.
  cbv zeta. rewrite handleWebSocketRoute_unfold. cbv zeta.
  destruct (handle _ _ _) as [[r ctx1] w2]. simpl.
  split; [reflexivity |]. split; [reflexivity |]. split; [reflexivity |].
  split; reflexivity.
Qed.

(** X6: dispatch never calls the transport's [upgrade], never calls
    [onUpgradeFailed], never writes to the console and never logs at error
    level, whatever the request, the routes and the collaborators are. *)
Theorem dispatch_never_upgrades_nor_fails this req srv w :
  List.filter is_outside_dispatch (trace (bunFetchHandler this req srv w)) = [].
Proof. dispatch_cases w; reflexivity. Qed.

(** X7: every dispatch asks the route registry exactly once, before any
    other call, and asks it for the whole [url] of the request. *)
Theorem dispatch_asks_registry_once_first this req srv w :
  exists rest,
    trace (bunFetchHandler this req srv w) = EvFindInRouteRegistry (url req) :: rest
    /\ List.filter is_registry_lookup rest = [].
Proof. dispatch_cases w; eexists; split; reflexivity. Qed.

(** X8: a request/response route reaches its handler unless the middleware
    returns the boolean [false] itself: [undefined], [null], [0], the empty
    string or an object do not reject.  The middleware is called exactly
    once, first, and the handler at most once. *)
Theorem handleWebRoute_rejects_on_false_only this req srv route w :
  let r := handleWebRoute this req srv route w in
  let res := (startMiddleware (this_MiddlewareDriver this)
                (built_context this req srv route) w).1.1 in
  (List.filter is_handle_event (trace r) = [] <-> res = JsBool false)
  /\ length (List.filter is_handle_event (trace r)) <= 1
  /\ length (List.filter is_middleware_call (trace r)) = 1
  /\ (exists ctx1 rest,
        trace r = EvStartMiddleware (built_context this req srv route) res ctx1 :: rest).
Proof.
  cbv zeta. rewrite handleWebRoute_unfold. cbv zeta.
  destruct (startMiddleware _ _ w) as [[res ctx1] w1]. simpl.
  destruct (strict_equals res (JsBool false)) eqn:Hstrict.
  - apply strict_equals_false_iff in Hstrict. subst res. simpl.
    split; [split; reflexivity |]. split; [lia |]. split; [reflexivity |].
    eexists _, _. reflexivity.
  - destruct (handle _ ctx1 w1) as [[r ctx2] w2]. simpl.
    split.
    { split; [discriminate |]. intros ->. discriminate Hstrict. }
    split; [lia |]. split; [reflexivity |]. eexists _, _. reflexivity.
Qed.

(** X9: the [getLogger] that a handler finds in the interface of its
    context, called on that interface, returns [undefined] although the
    driver itself has its logger, while the [json] found there is the
    driver's [json]: for every server built by the constructor and every
    exchange whose route resolves. *)
Theorem context_interface_getLogger_undefined config req srv route w :
  findInRouteRegistry (config_RouteDriver config) (url req) = Some route ->
  exists ctx0 out rest,
    handoffs (trace (bunFetchHandler (ServerDriver_new config) req srv w))
    = (ctx0, out) :: rest
    /\ interface_call_getLogger (context_ServerDriverInterface ctx0) = None
    /\ interface_json (context_ServerDriverInterface ctx0) = json
    /\ getLogger (ServerDriver_new config) = config_ServerLogger config.
Proof.
  intros Hresolves.
  exists (built_context (ServerDriver_new config) req srv route).
  dispatch_cases w; simpl in *; try congruence;
    (assert (found = route) as -> by congruence);
    eexists _, _; repeat split.
Qed.

(** X10: with the logger that the [ServerLogger] constructor makes, every
    line that dispatch logs carries the component name [SERVER] and the info
    level, whatever command-line driver the logger was given. *)
Theorem dispatch_logs_as_server_info cld config req srv w :
  config_ServerLogger config = ServerLogger_new cld ->
  Forall server_info_line (trace (bunFetchHandler (ServerDriver_new config) req srv w)).
Proof.
  intros Hlogger. dispatch_cases w; simpl; rewrite ?Hlogger; simpl;
    repeat constructor.
Qed.

(** X11: dispatch logs exactly when the url resolves to a web-socket
    route: an unknown url, and a request/response route whether accepted or
    rejected, leave no log line. *)
Theorem dispatch_logs_web_socket_routes_only this req srv w :
  List.filter is_log_event (trace (bunFetchHandler this req srv w)) <> []
  <-> exists route,
        findInRouteRegistry (this_RouteDriver this) (url req) = Some route
        /\ type route = WEB_SOCKET.
Proof.
  dispatch_cases w; simpl; split;
    try (intros Hlogs; by destruct Hlogs);
    try (intros (route & Hsome & Hws); congruence);
    try (intros _; eauto);
    try discriminate.
Qed.

(** X12: what [serve] hands to [Bun.serve] depends on the port and the
    web-socket driver of the configuration and on nothing else: the port is
    the configured one, the socket handler is the driver's, and servers that
    agree on these two are served alike, fetch handler included. *)
Theorem serve_depends_on_port_and_socket_driver config config' :
  config_port config = config_port config' ->
  config_WebSocketDriver config = config_WebSocketDriver config' ->
  serve (ServerDriver_new config) = serve (ServerDriver_new config')
  /\ port (serve (ServerDriver_new config)) = config_port config
  /\ websocket (serve (ServerDriver_new config))
     = WebSocketDriver_bunWebSocketHandler (config_WebSocketDriver config).
Proof.
  intros Hport Hws. unfold serve. simpl. rewrite Hport, Hws.
  split; [reflexivity |]. split; reflexivity.
Qed.

End DriverMore.

(** ** The two small servers *)

Section VariantsFacts.
Import Example Variants.

Lemma driver_of_config : driver = ServerDriver_new driver_config.
Proof. reflexivity. Qed.

Lemma upgrade2WebSocket_outcome_witness :
  (Server_upgrade refusing (get "/admin") []).1 = false
  /\ startMiddleware (this_MiddlewareDriver driver)
       (built_context driver (get "/admin") refusing admin) []
     = (JsBool false, built_context driver (get "/admin") refusing admin,
        ["audit /admin"; "authorization"])
  /\ exists resp,
       result (upgrade2WebSocket driver (get "/admin") refusing []) = UpgradeRefused resp
       /\ result (handleWebRoute driver (get "/admin") refusing admin []) = Some resp.
Proof.
  assert (startMiddleware (this_MiddlewareDriver driver)
            (built_context driver (get "/admin") refusing admin) []
          = (JsBool false, built_context driver (get "/admin") refusing admin,
             ["audit /admin"; "authorization"])) as Hmw by reflexivity.
  split; [reflexivity |]. split; [exact Hmw |].
  pose proof (upgrade2WebSocket_outcome driver (get "/admin") refusing []) as Hthm.
  cbv zeta in Hthm. destruct Hthm as (_ & _ & _ & _ & _ & Hsame).
  exact (Hsame admin [] _ _ eq_refl Hmw).
Defined.

Lemma handleWebSocketRoute_blind_to_middleware_witness :
  this_MiddlewareDriver driver <> this_MiddlewareDriver open_driver
  /\ handleWebSocketRoute driver (get "/chat") accepting chat []
     = handleWebSocketRoute open_driver (get "/chat") accepting chat [].
Proof.
  split.
  - intros Hsame.
    assert ((startMiddleware (this_MiddlewareDriver driver)
               (built_context driver (get "/chat") accepting chat) []).1.1
            = (startMiddleware (this_MiddlewareDriver open_driver)
                 (built_context driver (get "/chat") accepting chat) []).1.1) as Hres
      by (rewrite Hsame; reflexivity).
    vm_compute in Hres. discriminate Hres.
  - exact (handleWebSocketRoute_blind_to_middleware driver open_driver
             (get "/chat") accepting chat [] eq_refl eq_refl eq_refl eq_refl).
Defined.

Lemma context_interface_getLogger_undefined_witness :
  findInRouteRegistry (config_RouteDriver driver_config) (url (get "/health")) = Some health
  /\ exists ctx0 out rest,
       handoffs (trace (bunFetchHandler (ServerDriver_new driver_config)
                          (get "/health") accepting []))
       = (ctx0, out) :: rest
       /\ interface_call_getLogger (context_ServerDriverInterface ctx0) = None
       /\ interface_json (context_ServerDriverInterface ctx0) = json
       /\ getLogger (ServerDriver_new driver_config) = config_ServerLogger driver_config.
Proof.
  assert (findInRouteRegistry (config_RouteDriver driver_config) (url (get "/health"))
          = Some health) as Hhealth by reflexivity.
  split; [exact Hhealth |].
  exact (context_interface_getLogger_undefined driver_config (get "/health") accepting
           health [] Hhealth).
Defined.

Lemma dispatch_logs_as_server_info_witness :
  config_ServerLogger driver_config = ServerLogger_new tt
  /\ Forall server_info_line
       (trace (bunFetchHandler (ServerDriver_new driver_config) (get "/chat") accepting [])).
Proof.
  split; [reflexivity |].
  exact (dispatch_logs_as_server_info tt driver_config (get "/chat") accepting [] eq_refl).
Defined.

Lemma serve_depends_on_port_and_socket_driver_witness :
  config_rootUrl driver_config <> config_rootUrl open_config
  /\ serve (ServerDriver_new driver_config) = serve (ServerDriver_new open_config)
  /\ port (serve (ServerDriver_new driver_config)) = 3000%Z.
Proof.
  split; [discriminate |].
  destruct (serve_depends_on_port_and_socket_driver driver_config open_config
              eq_refl eq_refl) as (Hsame & Hport & _).
  split; [exact Hsame | exact Hport].
Defined.

End VariantsFacts.
